(** * ci-cd-demo: the Flask application of [app.py]

  The program is nine lines of Python: it builds a Flask application
  object, registers the view function [index] under the URL rule ["/"],
  and, when executed as the main module, starts the development server
  on host 0.0.0.0, port 8000.

  The development is a shallow embedding.  Python statements become
  computations in a state-and-exception monad over the state of the
  interpreter process; the module namespace is a finite map from names
  to values.  The calls the program makes into Flask and Werkzeug
  ([Flask(...)], [app.route], [app.run] and the request dispatch those
  set up) are modelled in the modules [Werkzeug] and [Flask] below, named
  after the framework functions they stand for. *)

From Stdlib Require Import ZArith String Ascii Decimal DecimalString.
From stdpp Require Import base option list gmap strings.

Local Open Scope Z_scope.
Local Open Scope string_scope.

(** ** Requests and responses (werkzeug.wrappers) *)

Module Werkzeug.

(** werkzeug.exceptions and werkzeug.routing.exceptions: what routing can
    raise, and the catch-all 500. [BadRequest] stands for itself and for its
    subclasses [BadHost] and [WebsocketMismatch], which add nothing to it;
    [RequestRedirect] carries the path the client is sent to. *)
Inductive HTTPException :=
| BadRequest
| NotFound
| MethodNotAllowed (valid_methods : gset string)
| RequestRedirect (new_path : string)
| InternalServerError.

(** A request as the application has it once the request context exists.
    [path_info] is the path the server passes on ([PATH_INFO]).
    [url_adapter] is what binding the URL map to the request gave: the
    exception raised for the host of the request ([BadHost], for a [Host]
    header that has no IDNA encoding), or the adapter, with its [websocket]
    flag (set when the [Connection] and [Upgrade] headers ask for a
    websocket). [headers] are the headers besides those three. *)
Record Request := mkRequest {
  method : string;
  path_info : string;
  query_string : string;
  url_adapter : HTTPException + bool;
  headers : list (string * string);
  stream : string
}.

Fixpoint lstrip_slash (s : string) : string :=
  match s with
  | String c s' => if Ascii.eqb c "/" then lstrip_slash s' else s
  | EmptyString => EmptyString
  end.

(** [Request.path]: always one leading slash. *)
Definition path (req : Request) : string := "/" +:+ lstrip_slash (path_info req).

(** A response: status code, [Content-Type], the [Allow] header as the set
    of methods it lists, and the body. *)
Record Response := mkResponse {
  status_code : Z;
  content_type : string;
  allow : gset string;
  data : string
}.

(** [Response.default_mimetype] is text/html in Flask, and the charset is
    appended to text types. *)
Definition default_mimetype : string := "text/html".
Definition default_content_type : string := default_mimetype +:+ "; charset=utf-8".

Definition code (e : HTTPException) : Z :=
  match e with
  | BadRequest => 400
  | NotFound => 404
  | MethodNotAllowed _ => 405
  | RequestRedirect _ => 308
  | InternalServerError => 500
  end.

Definition name (e : HTTPException) : string :=
  match e with
  | BadRequest => "Bad Request"
  | NotFound => "Not Found"
  | MethodNotAllowed _ => "Method Not Allowed"
  | RequestRedirect _ => "Permanent Redirect"
  | InternalServerError => "Internal Server Error"
  end.

Definition description (e : HTTPException) : string :=
  match e with
  | BadRequest =>
      "The browser (or proxy) sent a request that this server could not understand."
  | NotFound =>
      "The requested URL was not found on the server. If you entered the URL manually please check your spelling and try again."
  | MethodNotAllowed _ => "The method is not allowed for the requested URL."
  | RequestRedirect _ => "This URL has moved."
  | InternalServerError =>
      "The server encountered an internal error and was unable to complete your request. Either the server is overloaded or there is an error in the application."
  end.

Definition nl : string := String (ascii_of_nat 10) EmptyString.

(** Decimal text of an integer, as [str] prints an [int]. *)
Definition str_of_int (z : Z) : string := NilZero.string_of_int (Z.to_int z).

(** [HTTPException.get_body] and [get_response]. A redirect answers with
    the page of [werkzeug.utils.redirect]; the location is given by its
    path, scheme and host of the URL are left out. *)
Definition get_body (e : HTTPException) : string :=
  match e with
  | RequestRedirect new_path =>
      "<!doctype html>" +:+ nl +:+
      "<html lang=en>" +:+ nl +:+
      "<title>Redirecting...</title>" +:+ nl +:+
      "<h1>Redirecting...</h1>" +:+ nl +:+
      "<p>You should be redirected automatically to the target URL: " +:+ new_path
      +:+ ". If not, click the link." +:+ nl
  | _ =>
      "<!doctype html>" +:+ nl +:+
      "<html lang=en>" +:+ nl +:+
      "<title>" +:+ str_of_int (code e) +:+ " " +:+ name e +:+ "</title>" +:+ nl +:+
      "<h1>" +:+ name e +:+ "</h1>" +:+ nl +:+
      "<p>" +:+ description e +:+ "</p>" +:+ nl
  end.

Definition get_response (e : HTTPException) : Response :=
  {| status_code := code e;
     content_type := default_content_type;
     allow := match e with MethodNotAllowed ms => ms | _ => ∅ end;
     data := get_body e |}.

(** *** URL rules (werkzeug.routing) *)

Record Rule := mkRule {
  rule : string;
  methods : gset string;
  endpoint : string;
  provide_automatic_options : bool
}.

(** [Rule.__init__]: a rule that answers GET also answers HEAD. *)
Definition Rule_init (r : string) (ms : gset string) (ep : string) (auto_options : bool) : Rule :=
  {| rule := r;
     methods := if decide ("GET" ∈ ms) then ms ∪ {["HEAD"]} else ms;
     endpoint := ep;
     provide_automatic_options := auto_options |}.

(** Rule text. Two shapes occur in this program: plain text (["/"]), and
    plain text followed by one [<path:name>] variable (the static route).
    [split_rule] returns the text before the first ["<"] and what
    follows it. *)
Fixpoint split_rule (s : string) : string * string :=
  match s with
  | EmptyString => (EmptyString, EmptyString)
  | String c s' =>
      if Ascii.eqb c "<" then (EmptyString, s)
      else let '(pre, var) := split_rule s' in (String c pre, var)
  end.

Fixpoint strip_prefix (p s : string) : option string :=
  match p, s with
  | EmptyString, _ => Some s
  | String a p', String b s' => if Ascii.eqb a b then strip_prefix p' s' else None
  | String _ _, EmptyString => None
  end.

Fixpoint strip_suffix_char (c : ascii) (s : string) : option string :=
  match s with
  | EmptyString => None
  | String a EmptyString => if Ascii.eqb a c then Some EmptyString else None
  | String a s' => String a <$> strip_suffix_char c s'
  end.

(** The variable part of a rule: [None] when the rule is plain text,
    [Some (Some v)] for [<path:v>], [Some None] for syntax outside the
    modelled fragment. *)
Definition rule_variable (var : string) : option (option string) :=
  match var with
  | EmptyString => None
  | _ => Some (strip_prefix "<path:" var ≫= strip_suffix_char ">")
  end.

Fixpoint has_newline (s : string) : bool :=
  match s with
  | EmptyString => false
  | String c s' => Ascii.eqb c (ascii_of_nat 10) || has_newline s'
  end.

(** The [path] converter matches the regular expression [[^/].*?] up to
    the end of the path: a non-empty text that does not start with a slash
    and, the dot of a regular expression excluding it, holds no newline. *)
Definition path_converter (s : string) : bool :=
  match s with
  | EmptyString => false
  | String c _ => negb (Ascii.eqb c "/") && negb (has_newline s)
  end.

(** Matching one rule against a path gives the view arguments. *)
Definition match_rule (r : Rule) (p : string) : option (list (string * string)) :=
  let '(pre, var) := split_rule (rule r) in
  match rule_variable var with
  | None => if decide (p = pre) then Some [] else None
  | Some (Some v) =>
      rest ← strip_prefix pre p;
      if path_converter rest then Some [(v, rest)] else None
  | Some None => None
  end.

(** A rule of plain text that ends in a slash also recognises the path
    without that slash, to redirect it ([strict_slashes]). *)
Definition slash_missing (r : Rule) (p : string) : bool :=
  let '(pre, var) := split_rule (rule r) in
  match rule_variable var with
  | None => bool_decide (p +:+ "/" = pre)
  | Some _ => false
  end.

(** One run of the matcher over the rules. No rule of this program is a
    websocket rule, so a websocket request matches none. A rule whose path
    matches but whose methods do not adds its methods to [have_match_for];
    one that fails on the websocket flag alone sets [websocket_mismatch]. *)
Fixpoint match_exact (rules : list Rule) (m : string) (websocket : bool) (p : string)
    (have_match_for : gset string) (websocket_mismatch : bool)
  : (Rule * list (string * string)) + (gset string * bool) :=
  match rules with
  | [] => inr (have_match_for, websocket_mismatch)
  | r :: rules' =>
      match match_rule r p with
      | Some args =>
          if decide (m ∈ methods r) then
            if websocket
            then match_exact rules' m websocket p have_match_for true
            else inl (r, args)
          else match_exact rules' m websocket p (have_match_for ∪ methods r)
                 websocket_mismatch
      | None => match_exact rules' m websocket p have_match_for websocket_mismatch
      end
  end.

Definition slash_required (rules : list Rule) (m : string) (websocket : bool) (p : string) : bool :=
  existsb (λ r, slash_missing r p && bool_decide (m ∈ methods r) && negb websocket) rules.

(** [re.sub("/{2,}?", "/", path)]: from left to right, every two slashes
    in a row become one. *)
Fixpoint merge_slashes (s : string) : string :=
  match s with
  | String a ((String b s') as t) =>
      if Ascii.eqb a "/" && Ascii.eqb b "/" then String "/" (merge_slashes s')
      else String a (merge_slashes t)
  | _ => s
  end.

(** [MapAdapter.match]. The path that is matched has one leading slash,
    or is empty when [PATH_INFO] is. A path that only matches with a slash
    added, or only after its slashes are merged, is redirected. Otherwise
    the error is 405 with the methods of the rules that matched the path,
    400 for a websocket mismatch, or 404. *)
Definition path_part (path_info : string) : string :=
  match path_info with
  | EmptyString => EmptyString
  | _ => "/" +:+ lstrip_slash path_info
  end.

Definition match_ (rules : list Rule) (m : string) (websocket : bool) (path_info : string)
  : HTTPException + (Rule * list (string * string)) :=
  let p := path_part path_info in
  match match_exact rules m websocket p ∅ false with
  | inl found => inr found
  | inr (have_match_for, websocket_mismatch) =>
      if slash_required rules m websocket p then inl (RequestRedirect (p +:+ "/"))
      else
        let p' := merge_slashes p in
        match match_exact rules m websocket p' have_match_for websocket_mismatch with
        | inl _ => inl (RequestRedirect p')
        | inr (have_match_for, websocket_mismatch) =>
            if slash_required rules m websocket p' then inl (RequestRedirect (p' +:+ "/"))
            else if decide (have_match_for = ∅) then
              if websocket_mismatch then inl BadRequest else inl NotFound
            else inl (MethodNotAllowed have_match_for)
        end
  end.

(** [MapAdapter.allowed_methods]: the methods of every rule that matches
    the path. *)
Definition allowed_methods (rules : list Rule) (p : string) : gset string :=
  ⋃ (methods <$> filter (λ r, is_Some (match_rule r p)) rules).

End Werkzeug.

(** ** The interpreter process *)

Module Py.

Import Werkzeug.

(** Function objects, by the code they refer to: the view function that
    [app.py] defines, and the view Flask installs for its static route. *)
Inductive callable := fn_index | fn_send_static_file.

Global Instance callable_eq_dec : EqDecision callable.
Proof. solve_decision. Defined.

(** [f.__name__] *)
Definition __name__ (f : callable) : string :=
  match f with
  | fn_index => "index"
  | fn_send_static_file => "send_static_file"
  end.

(** A [Flask] object: the attributes the program and the dispatch use. *)
Record flask_app := mkFlask {
  import_name : string;
  url_map : list Rule;
  view_functions : gmap string callable
}.

(** Values bound in the module namespace: texts, the class [Flask], its
    instances, and functions. *)
Inductive value :=
| VStr (s : string)
| VClass
| VApp (a : flask_app)
| VFunc (f : callable).

(** The development server started by [app.run]. *)
Record Server := mkServer {
  host : string;
  port : Z;
  wsgi : flask_app
}.

(** State of the process: the namespace of the module, the server the
    process is running (once [run] was called), the static folder next
    to the module, as the answer of the framework's file server to a
    request for a file name ([None]: no such file), the requests that
    have reached the address of the process and wait to be accepted, and
    the responses the process has sent. *)
Record State := mkState {
  globals : gmap string value;
  server : option Server;
  static_folder : string → Request → option Response;
  incoming : list Request;
  sent : list Response
}.

Definition set_globals (g : gmap string value) (σ : State) : State :=
  {| globals := g; server := server σ; static_folder := static_folder σ;
     incoming := incoming σ; sent := sent σ |}.

Definition set_server (s : option Server) (σ : State) : State :=
  {| globals := globals σ; server := s; static_folder := static_folder σ;
     incoming := incoming σ; sent := sent σ |}.

Definition set_io (i : list Request) (o : list Response) (σ : State) : State :=
  {| globals := globals σ; server := server σ; static_folder := static_folder σ;
     incoming := i; sent := o |}.

(** Exceptions. [Blocked] is none: it marks a call that has not returned,
    the process waiting inside it; nothing catches it. *)
Inductive exn :=
| NameError (n : string)
| TypeError (msg : string)
| AssertionError (msg : string)
| HTTP (e : HTTPException)
| Blocked.

(** Computations: state passing, with exceptions. A raise keeps the state
    reached so far. *)
Definition M (A : Type) : Type := State → (exn + A) * State.

Global Instance M_ret : MRet M := λ A a σ, (inr a, σ).

Global Instance M_bind : MBind M := λ A B f m σ,
  match m σ with
  | (inr a, σ') => f a σ'
  | (inl e, σ') => (inl e, σ')
  end.

Definition raise {A} (e : exn) : M A := λ σ, (inl e, σ).

Definition try_except {A} (m : M A) (handler : exn → M A) : M A := λ σ,
  match m σ with
  | (inl Blocked, σ') => (inl Blocked, σ')
  | (inl e, σ') => handler e σ'
  | r => r
  end.

Definition get_state : M State := λ σ, (inr σ, σ).

Definition modify_state (f : State → State) : M unit := λ σ, (inr (), f σ).

(** Reading and binding a global name. *)
Definition load (n : string) : M value := λ σ,
  match globals σ !! n with
  | Some v => (inr v, σ)
  | None => (inl (NameError n), σ)
  end.

Definition store (n : string) (v : value) : M unit :=
  modify_state (λ σ, set_globals (<[n := v]> (globals σ)) σ).

End Py.

(** ** The framework calls of the program *)

Module Flask.

Import Werkzeug Py.

(** What a view function may return, and what the dispatch turns into a
    response: a text, a response object, or an HTTP error. *)
Inductive rv :=
| RvStr (s : string)
| RvResponse (r : Response)
| RvException (e : HTTPException).

(** [Flask.add_url_rule(rule, endpoint, view_func, methods=...)].
    Without [methods] a rule answers GET; OPTIONS is added and answered by
    the framework unless the caller lists it; [Rule] adds HEAD. The rule
    joins the map before the endpoint is checked, as in the framework. *)
Definition add_url_rule (rule : string) (endpoint : option string)
    (view_func : callable) (methods : option (gset string))
    (self : flask_app) : (exn + unit) * flask_app :=
  let endpoint := default (__name__ view_func) endpoint in
  let methods := default {["GET"]} methods in
  let provide_automatic_options := bool_decide ("OPTIONS" ∉ methods) in
  let required_methods : gset string :=
    if provide_automatic_options then {["OPTIONS"]} else ∅ in
  let rule_obj :=
    Rule_init rule (methods ∪ required_methods) endpoint provide_automatic_options in
  let self := mkFlask (import_name self) (url_map self ++ [rule_obj]) (view_functions self) in
  match view_functions self !! endpoint with
  | Some old_func =>
      if decide (old_func = view_func)
      then (inr (), mkFlask (import_name self) (url_map self)
                            (<[endpoint := view_func]> (view_functions self)))
      else (inl (AssertionError
                   ("View function mapping is overwriting an existing endpoint function: "
                    +:+ endpoint)), self)
  | None =>
      (inr (), mkFlask (import_name self) (url_map self)
                       (<[endpoint := view_func]> (view_functions self)))
  end.

(** [Flask(import_name)]: with the default [static_folder] the constructor
    registers the static route. The constructor also looks up the folder
    of the module called [import_name]; that is left out, the module being
    the file [app.py]. *)
Definition Flask (import_name : string) : M flask_app := λ σ,
  let self := mkFlask import_name [] ∅ in
  match add_url_rule "/static/<path:filename>" (Some "static")
                     fn_send_static_file None self with
  | (inr _, self) => (inr self, σ)
  | (inl e, _) => (inl e, σ)
  end.

(** A method call on the application object bound to a global name: the
    object is read from the namespace and its new value is written back
    under the same name. *)
Definition on_app {A} (n : string) (f : flask_app → M (A * flask_app)) : M A :=
  v ← load n;
  match v with
  | VApp self => '(a, self') ← f self; store n (VApp self');; mret a
  | _ => raise (TypeError "not a Flask object")
  end.

(** [app.route(rule)(f)]: registers [f] under its own name and returns
    it. *)
Definition route (rule : string) (f : callable) (self : flask_app) : M (callable * flask_app) :=
  λ σ, match add_url_rule rule None f None self with
       | (inr _, self') => (inr (f, self'), σ)
       | (inl e, _) => (inl e, σ)
       end.

(** [Flask.send_static_file]: the file server of the framework answers
    for a file of the static folder; no such file is a 404. *)
Definition send_static_file (req : Request) (filename : string) : M rv :=
  σ ← get_state;
  match static_folder σ filename req with
  | Some r => mret (RvResponse r)
  | None => raise (HTTP NotFound)
  end.

Section Dispatch.

(** Calling a function object with the view arguments of the matched rule;
    given by the program, which defines the view functions. *)
Variable call : callable → Request → list (string * string) → M rv.

Definition make_default_options_response (self : flask_app) (req : Request) : Response :=
  {| status_code := 200;
     content_type := default_content_type;
     allow := allowed_methods (url_map self) (path_part (path_info req));
     data := "" |}.

(** Matching the request when its context is pushed: the exception of
    binding the URL map, if there was one, else the outcome of the match. *)
Definition match_request (self : flask_app) (req : Request)
  : HTTPException + (Rule * list (string * string)) :=
  match url_adapter req with
  | inl e => inl e
  | inr websocket => match_ (url_map self) (method req) websocket (path_info req)
  end.

(** [Flask.dispatch_request] *)
Definition dispatch_request (self : flask_app) (req : Request) : M rv :=
  match match_request self req with
  | inl routing_exception => raise (HTTP routing_exception)
  | inr (rule, view_args) =>
      if provide_automatic_options rule && bool_decide (method req = "OPTIONS")
      then mret (RvResponse (make_default_options_response self req))
      else
        match view_functions self !! endpoint rule with
        | Some view => call view req view_args
        | None => raise (TypeError "no view function for the endpoint")
        end
  end.

(** [Flask.make_response] *)
Definition make_response (r : rv) : Response :=
  match r with
  | RvStr s =>
      {| status_code := 200; content_type := default_content_type; allow := ∅; data := s |}
  | RvResponse r => r
  | RvException e => get_response e
  end.

(** [Flask.full_dispatch_request]: HTTP errors become the return value,
    other exceptions propagate. *)
Definition full_dispatch_request (self : flask_app) (req : Request) : M Response :=
  r ← try_except (dispatch_request self req)
        (λ e, match e with
              | HTTP h => mret (RvException h)
              | _ => raise e
              end);
  mret (make_response r).

(** Sending a response: no body goes out for HEAD and for the statuses
    that carry none. *)
Definition send (req : Request) (r : Response) : Response :=
  if bool_decide (method req = "HEAD")
     || bool_decide (100 ≤ status_code r < 200)
     || bool_decide (status_code r = 204) || bool_decide (status_code r = 304)
  then {| status_code := status_code r; content_type := content_type r;
          allow := allow r; data := "" |}
  else r.

(** [Flask.wsgi_app]: any exception left is answered with 500. *)
Definition wsgi_app (self : flask_app) (req : Request) (σ : State) : Response * State :=
  match full_dispatch_request self req σ with
  | (inr response, σ') => (send req response, σ')
  | (inl _, σ') => (send req (get_response InternalServerError), σ')
  end.

(** [app.run(host, port)]: the development server is bound to the
    address and the process enters its serving loop. The loop answers the
    requests that have come in, one after the other, and goes on waiting:
    the call does not return. *)
Fixpoint serve (self : flask_app) (reqs : list Request) (σ : State) : list Response * State :=
  match reqs with
  | [] => ([], σ)
  | req :: reqs' =>
      let '(r, σ') := wsgi_app self req σ in
      let '(rs, σ'') := serve self reqs' σ' in
      (r :: rs, σ'')
  end.

Definition run (host : string) (port : Z) (self : flask_app) : M (unit * flask_app) := λ σ,
  let σ := set_server (Some (mkServer host port self)) σ in
  let '(rs, σ') := serve self (incoming σ) σ in
  (inl Blocked, set_io [] (sent σ' ++ rs) σ').

(** *** The serving process from outside

    What reaches a serving process later on: a request, or its termination
    from outside. A process that is not serving answers nothing. *)
Inductive input :=
| Incoming (req : Request)
| Terminate.

Definition step (i : input) (σ : State) : option Response * State :=
  match i with
  | Incoming req =>
      match server σ with
      | Some srv => let '(r, σ') := wsgi_app (wsgi srv) req σ in (Some r, σ')
      | None => (None, σ)
      end
  | Terminate => (None, set_server None σ)
  end.

Fixpoint serve_forever (inputs : list input) (σ : State) : list (option Response) * State :=
  match inputs with
  | [] => ([], σ)
  | i :: inputs' =>
      let '(r, σ') := step i σ in
      let '(rs, σ'') := serve_forever inputs' σ' in
      (r :: rs, σ'')
  end.

End Dispatch.

End Flask.

(** ** The program: [app.py] *)

Module App.

Import Werkzeug Py Flask.

(** [def index(): return "5 + 3 = 8"] *)
Definition index : M string := mret "5 + 3 = 8".

(** Calling a function object with keyword arguments: [index] takes none,
    the static view takes [filename]. *)
Definition call (f : callable) (req : Request) (kwargs : list (string * string)) : M rv :=
  match f, kwargs with
  | fn_index, [] => s ← index; mret (RvStr s)
  | fn_index, _ => raise (TypeError "index() got an unexpected keyword argument")
  | fn_send_static_file, [(k, filename)] =>
      if bool_decide (k = "filename") then send_static_file req filename
      else raise (TypeError "send_static_file() got an unexpected keyword argument")
  | fn_send_static_file, _ =>
      raise (TypeError "send_static_file() missing or unexpected arguments")
  end.

(** [x == "..."] on a value of the namespace *)
Definition eq_str (v : value) (s : string) : bool :=
  match v with
  | VStr s' => bool_decide (s' = s)
  | _ => false
  end.

(** The statements of the module, in order: the import, the application
    object and the decorated function. *)
Definition module_definitions : M unit :=
  (* from flask import Flask *)
  store "Flask" VClass;;
  (* app = Flask(__name__) *)
  cls ← load "Flask";
  n ← load "__name__";
  a ← match cls, n with
      | VClass, VStr n => Flask n
      | VClass, _ => raise (TypeError "import_name is not a str")
      | _, _ => raise (TypeError "object is not callable")
      end;
  store "app" (VApp a);;
  (* @app.route("/")
     def index(): ... *)
  f ← on_app "app" (route "/" fn_index);
  store "index" (VFunc f).

(** The guarded block that ends the module. *)
Definition module_main : M unit :=
  (* if __name__ == "__main__":
         app.run(host="0.0.0.0", port=8000) *)
  n ← load "__name__";
  if eq_str n "__main__"
  then on_app "app" (run call "0.0.0.0" 8000)
  else mret ().

Definition module_body : M unit :=
  module_definitions;;
  module_main.

(** Executing the module under a name: [python app.py] executes it as
    ["__main__"], an import as ["app"]. The namespace starts with
    [__name__] alone. *)
Definition exec_module (name : string) : M unit :=
  modify_state (set_globals {["__name__" := VStr name]});;
  module_body.

(** The WSGI callable [app] of the module, as a server that imported the
    module calls it; nothing answers when the name is not bound to an
    application. *)
Definition application (req : Request) (σ : State) : option Response * State :=
  match globals σ !! "app" with
  | Some (VApp a) => let '(r, σ') := wsgi_app call a req σ in (Some r, σ')
  | _ => (None, σ)
  end.

(** The serving loop of the process, with the views of this program. *)
Definition serve_forever := Flask.serve_forever call.

End App.

Import Werkzeug Py Flask App.

(** ** Vocabulary of the statements *)

(** The two rules of the application's URL map. *)
Definition static_rule : Rule :=
  mkRule "/static/<path:filename>" {["GET"; "HEAD"; "OPTIONS"]} "static" true.

Definition index_rule : Rule :=
  mkRule "/" {["GET"; "HEAD"; "OPTIONS"]} "index" true.

(** The application object after the module body has run. *)
Definition app_object (name : string) : flask_app :=
  mkFlask name [static_rule; index_rule]
    (<["index" := fn_index]> {["static" := fn_send_static_file]}).

(** The module namespace after the module body has run. *)
Definition namespace (name : string) : gmap string value :=
  <["index" := VFunc fn_index]>
    (<["app" := VApp (app_object name)]>
       (<["Flask" := VClass]> {["__name__" := VStr name]})).

(** A computation that leaves the state of the process as it found it. *)
Definition preserves {A} (m : M A) : Prop := ∀ σ, snd (m σ) = σ.

(** A view that computes what it prints: the text ["5 + 3 = "] followed by
    the decimal representation of the sum 5 + 3. *)
Definition index_computed : M string :=
  mret ("5 + 3 = " +:+ str_of_int (5 + 3)).



(** ** What the statements of the module do *)

Lemma Flask_init (name : string) (σ : State) :
  Flask name σ = (inr (mkFlask name [static_rule] {["static" := fn_send_static_file]}), σ).
Proof. vm_compute. reflexivity. Qed.

Lemma module_definitions_spec (name : string) (σ : State) :
  module_definitions (set_globals {["__name__" := VStr name]} σ)
  = (inr (), set_globals (namespace name) σ).
Proof. vm_compute. reflexivity. Qed.

Lemma namespace_name (name : string) : namespace name !! "__name__" = Some (VStr name).
Proof. reflexivity. Qed.

Lemma namespace_app (name : string) : namespace name !! "app" = Some (VApp (app_object name)).
Proof. reflexivity. Qed.

Lemma exec_module_definitions (name : string) (σ : State) :
  exec_module name σ = module_main (set_globals (namespace name) σ).
Proof.
  unfold exec_module, module_body.
  cbv [mbind M_bind modify_state].
  rewrite module_definitions_spec. reflexivity.
Qed.

Lemma module_body_import (name : string) (σ : State) :
  name ≠ "__main__" →
  exec_module name σ = (inr (), set_globals (namespace name) σ).
Proof.
  intros Hname. rewrite exec_module_definitions.
  unfold module_main. cbv [mbind M_bind load].
  cbn [globals set_globals]. rewrite namespace_name.
  cbn [eq_str]. rewrite bool_decide_eq_false_2 by done.
  reflexivity.
Qed.

(** ** Computations that leave the state alone *)

Create HintDb pure discriminated.

Lemma preserves_ret {A} (a : A) : preserves (mret a).
Proof. intros σ. reflexivity. Qed.

Lemma preserves_raise {A} (e : exn) : preserves (@raise A e).
Proof. intros σ. reflexivity. Qed.

Lemma preserves_get_state : preserves get_state.
Proof. intros σ. reflexivity. Qed.

Lemma preserves_bind {A B} (m : M A) (f : A → M B) :
  preserves m → (∀ a, preserves (f a)) → preserves (m ≫= f).
Proof.
  intros Hm Hf σ. specialize (Hm σ).
  unfold mbind, M_bind. destruct (m σ) as [[e|a] σ']; simpl in *; subst.
  - reflexivity.
  - apply Hf.
Qed.

Lemma preserves_try_except {A} (m : M A) (handler : exn → M A) :
  preserves m → (∀ e, preserves (handler e)) → preserves (try_except m handler).
Proof.
  intros Hm Hh σ. specialize (Hm σ).
  unfold try_except. destruct (m σ) as [[e|a] σ']; simpl in *; subst.
  - destruct e; try apply Hh. reflexivity.
  - reflexivity.
Qed.

#[export] Hint Resolve preserves_ret preserves_raise preserves_get_state : pure.

(** [index] preserves the state, and so does the static view. *)
Lemma preserves_index : preserves index.
Proof. unfold index. auto with pure. Qed.

Lemma preserves_send_static_file (req : Request) (filename : string) :
  preserves (send_static_file req filename).
Proof.
  unfold send_static_file. apply preserves_bind; [auto with pure|].
  intros σ. destruct (static_folder σ filename req); auto with pure.
Qed.

Lemma preserves_call (f : callable) (req : Request) (kwargs : list (string * string)) :
  preserves (call f req kwargs).
Proof.
  destruct f.
  - destruct kwargs; simpl.
    + apply preserves_bind; [apply preserves_index|auto with pure].
    + auto with pure.
  - destruct kwargs as [|[k v] [|]]; simpl.
    + auto with pure.
    + case_bool_decide; [apply preserves_send_static_file|auto with pure].
    + auto with pure.
Qed.

(** ** Dispatch in the application *)

(** Whatever the application object, no request changes the state of the
    process. *)
Lemma preserves_dispatch_request (self : flask_app) (req : Request) :
  preserves (dispatch_request call self req).
Proof.
  unfold dispatch_request.
  destruct (match_request _ _) as [e|[r args]]; [auto with pure|].
  destruct (_ && _); [auto with pure|].
  destruct (_ !! _); [apply preserves_call|auto with pure].
Qed.

Lemma preserves_full_dispatch_request (self : flask_app) (req : Request) :
  preserves (full_dispatch_request call self req).
Proof.
  unfold full_dispatch_request.
  apply preserves_bind; [|auto with pure].
  apply preserves_try_except; [apply preserves_dispatch_request|].
  intros []; auto with pure.
Qed.

Lemma wsgi_app_state (self : flask_app) (req : Request) (σ : State) :
  snd (wsgi_app call self req σ) = σ.
Proof.
  unfold wsgi_app.
  pose proof (preserves_full_dispatch_request self req σ) as H.
  destruct (full_dispatch_request call self req σ) as [[e|r] σ']; exact H.
Qed.

Lemma application_state (req : Request) (σ : State) :
  snd (application req σ) = σ.
Proof.
  unfold application.
  destruct (globals σ !! "app") as [[]|]; try reflexivity.
  pose proof (wsgi_app_state a req σ) as H.
  destruct (wsgi_app call a req σ); exact H.
Qed.

Lemma serve_spec (self : flask_app) (reqs : list Request) (σ : State) :
  serve call self reqs σ = ((λ req, fst (wsgi_app call self req σ)) <$> reqs, σ).
Proof.
  induction reqs as [|req reqs IH]; [reflexivity|].
  cbn [serve fmap list_fmap].
  pose proof (wsgi_app_state self req σ) as H.
  destruct (wsgi_app call self req σ) as [r σ']. simpl in H. subst σ'.
  cbn [fmap list_fmap] in IH. rewrite IH. reflexivity.
Qed.

(** ** The process after the module has run *)

Lemma module_body_main (σ : State) :
  exec_module "__main__" σ =
    (inl Blocked,
     set_io []
       (sent σ ++ ((λ req, fst (wsgi_app call (app_object "__main__") req
                                  (set_server (Some (mkServer "0.0.0.0" 8000 (app_object "__main__")))
                                     (set_globals (namespace "__main__") σ))))
                   <$> incoming σ))%list
       (set_server (Some (mkServer "0.0.0.0" 8000 (app_object "__main__")))
          (set_globals (namespace "__main__") σ))).
Proof.
  rewrite exec_module_definitions.
  unfold module_main, on_app, run. cbv [mbind M_bind load].
  cbn [globals set_globals]. rewrite namespace_name.
  cbn [eq_str]. rewrite bool_decide_eq_true_2 by reflexivity.
  cbn [globals set_globals set_server incoming]. rewrite namespace_app.
  rewrite serve_spec. reflexivity.
Qed.

Lemma exec_module_globals (name : string) (σ : State) :
  globals (snd (exec_module name σ)) = namespace name.
Proof.
  destruct (decide (name = "__main__")) as [->|H].
  - rewrite module_body_main. reflexivity.
  - rewrite module_body_import by done. reflexivity.
Qed.

Lemma exec_module_static_folder (name : string) (σ : State) :
  static_folder (snd (exec_module name σ)) = static_folder σ.
Proof.
  destruct (decide (name = "__main__")) as [->|H].
  - rewrite module_body_main. reflexivity.
  - rewrite module_body_import by done. reflexivity.
Qed.

(** The WSGI callable of the module is the dispatch of [app_object]. *)
Lemma application_loaded (name : string) (σ0 : State) (req : Request) :
  application req (snd (exec_module name σ0)) =
    (Some (fst (wsgi_app call (app_object name) req (snd (exec_module name σ0)))),
     snd (exec_module name σ0)).
Proof.
  unfold application. rewrite exec_module_globals, namespace_app.
  pose proof (wsgi_app_state (app_object name) req (snd (exec_module name σ0))) as H.
  destruct (wsgi_app _ _ _ _) as [r σ']. simpl in *. now subst.
Qed.

(** ** Routing in the application *)

Lemma match_index_rule (p : string) :
  match_rule index_rule p = if decide (p = "/") then Some [] else None.
Proof. reflexivity. Qed.

Lemma match_static_rule (p : string) :
  match_rule static_rule p =
    rest ← strip_prefix "/static/" p;
    if path_converter rest then Some [("filename", rest)] else None.
Proof. reflexivity. Qed.

Lemma strip_prefix_app (pre p rest : string) :
  strip_prefix pre p = Some rest → p = pre +:+ rest.
Proof.
  revert p. induction pre as [|a pre IH]; intros p; simpl.
  - intros [= ->]. reflexivity.
  - destruct p as [|b p]; [discriminate|].
    destruct (Ascii.eqb_spec a b) as [->|]; [|discriminate].
    intros H. change (String b p = String b (pre +:+ rest)).
    f_equal. now apply IH.
Qed.

Lemma match_static_rule_inv (p : string) (args : list (string * string)) :
  match_rule static_rule p = Some args →
  ∃ filename, p = "/static/" +:+ filename ∧ args = [("filename", filename)].
Proof.
  rewrite match_static_rule.
  destruct (strip_prefix "/static/" p) as [rest|] eqn:E; simpl; [|discriminate].
  destruct (path_converter rest); [|discriminate].
  intros [= <-]. exists rest. split; [now apply strip_prefix_app|reflexivity].
Qed.

(** The path that is matched is the path of the request, unless it is
    empty. *)
Lemma path_part_path (req : Request) :
  path_part (path_info req) ≠ "" → path_part (path_info req) = path req.
Proof. unfold path_part, path. destruct (path_info req); [congruence|reflexivity]. Qed.

Lemma match_exact_found (rules : list Rule) (m : string) (ws : bool) (p : string)
    (hm : gset string) (wsm : bool) (r : Rule) (args : list (string * string)) :
  match_exact rules m ws p hm wsm = inl (r, args) →
  r ∈ rules ∧ match_rule r p = Some args ∧ m ∈ methods r ∧ ws = false.
Proof.
  revert hm wsm. induction rules as [|r0 rules IH]; intros hm wsm; simpl; [discriminate|].
  destruct (match_rule r0 p) as [args0|] eqn:Hr0.
  - destruct (decide (m ∈ methods r0)) as [Hin|Hin].
    + destruct ws.
      * intros H. apply IH in H as (? & ? & ? & ?). discriminate.
      * intros [= <- <-]. repeat split; [left|assumption..].
    + intros H. apply IH in H as (? & ? & ? & ?). repeat split; [now right|assumption..].
  - intros H. apply IH in H as (? & ? & ? & ?). repeat split; [now right|assumption..].
Qed.

Lemma match_found (rules : list Rule) (m : string) (ws : bool) (pi : string)
    (r : Rule) (args : list (string * string)) :
  match_ rules m ws pi = inr (r, args) →
  r ∈ rules ∧ match_rule r (path_part pi) = Some args ∧ m ∈ methods r ∧ ws = false.
Proof.
  unfold match_.
  destruct (match_exact rules m ws (path_part pi) ∅ false) as [[r1 a1]|[hm wsm]] eqn:E1.
  - intros [= <- <-]. now apply match_exact_found in E1.
  - destruct (slash_required _ _ _ _); [discriminate|].
    destruct (match_exact rules m ws _ hm wsm) as [?|[hm' wsm']]; [discriminate|].
    destruct (slash_required _ _ _ _); [discriminate|].
    destruct (decide _); [destruct wsm'|]; discriminate.
Qed.

(** A request is routed to a view in two cases only. *)
Lemma match_request_found (name : string) (req : Request)
    (r : Rule) (args : list (string * string)) :
  match_request (app_object name) req = inr (r, args) →
  url_adapter req = inr false
  ∧ method req ∈ ({["GET"; "HEAD"; "OPTIONS"]} : gset string)
  ∧ ((r = index_rule ∧ args = [] ∧ path_part (path_info req) = "/" ∧ path req = "/")
     ∨ (r = static_rule
        ∧ ∃ filename, args = [("filename", filename)]
                      ∧ path_part (path_info req) = "/static/" +:+ filename
                      ∧ path req = "/static/" +:+ filename)).
Proof.
  unfold match_request. destruct (url_adapter req) as [e|ws]; [discriminate|].
  intros H. apply match_found in H as (Hr & Hmatch & Hm & ->).
  split; [reflexivity|].
  cbn [url_map app_object] in Hr.
  apply elem_of_cons in Hr as [->|Hr]; [|apply elem_of_cons in Hr as [->|Hr]].
  - split; [exact Hm|]. right. split; [reflexivity|].
    apply match_static_rule_inv in Hmatch as (filename & Hp & ->).
    exists filename. split; [reflexivity|]. split; [exact Hp|].
    rewrite <- path_part_path; [exact Hp|]. rewrite Hp. discriminate.
  - split; [exact Hm|]. left. split; [reflexivity|].
    rewrite match_index_rule in Hmatch.
    destruct (decide (path_part (path_info req) = "/")) as [Hp|]; [|discriminate].
    injection Hmatch as <-. split; [reflexivity|]. split; [exact Hp|].
    rewrite <- path_part_path; [exact Hp|]. rewrite Hp. discriminate.
  - now apply elem_of_nil in Hr.
Qed.

Lemma allowed_methods_root (name : string) :
  allowed_methods (url_map (app_object name)) "/" = {["GET"; "HEAD"; "OPTIONS"]}.
Proof. vm_compute. reflexivity. Qed.

Lemma allowed_methods_static (name : string) (filename : string) :
  match_rule static_rule ("/static/" +:+ filename) = Some [("filename", filename)] →
  allowed_methods (url_map (app_object name)) ("/static/" +:+ filename)
  = {["GET"; "HEAD"; "OPTIONS"]}.
Proof.
  intros Hs. unfold allowed_methods. cbn [url_map app_object].
  rewrite filter_cons_True by (rewrite Hs; eauto).
  rewrite filter_cons_False.
  2:{ rewrite match_index_rule.
      destruct (decide ("/static/" +:+ filename = "/")) as [E|_]; [discriminate E|].
      intros [? [=]]. }
  vm_compute. reflexivity.
Qed.

Lemma view_functions_index (name : string) :
  view_functions (app_object name) !! "index" = Some fn_index.
Proof. reflexivity. Qed.

Lemma view_functions_static (name : string) :
  view_functions (app_object name) !! "static" = Some fn_send_static_file.
Proof. reflexivity. Qed.

(** The three ways a request is answered: by a routing error, by [index]
    or the automatic OPTIONS response on ["/"], by the static route. *)
Lemma wsgi_app_cases (name : string) (req : Request) (σ : State) :
  (∃ e, match_request (app_object name) req = inl e
        ∧ fst (wsgi_app call (app_object name) req σ) = send req (get_response e))
  ∨ (url_adapter req = inr false
     ∧ path_info req ≠ "" ∧ path req = "/"
     ∧ method req ∈ ({["GET"; "HEAD"; "OPTIONS"]} : gset string)
     ∧ fst (wsgi_app call (app_object name) req σ)
       = send req (if bool_decide (method req = "OPTIONS")
                   then mkResponse 200 default_content_type {["GET"; "HEAD"; "OPTIONS"]} ""
                   else mkResponse 200 default_content_type ∅ "5 + 3 = 8"))
  ∨ (∃ filename,
       url_adapter req = inr false
       ∧ path req = "/static/" +:+ filename
       ∧ method req ∈ ({["GET"; "HEAD"; "OPTIONS"]} : gset string)
       ∧ fst (wsgi_app call (app_object name) req σ)
         = send req (if bool_decide (method req = "OPTIONS")
                     then mkResponse 200 default_content_type {["GET"; "HEAD"; "OPTIONS"]} ""
                     else match static_folder σ filename req with
                          | Some r => r
                          | None => get_response NotFound
                          end)).
Proof.
  unfold wsgi_app, full_dispatch_request, dispatch_request.
  cbv [mbind M_bind try_except].
  destruct (match_request (app_object name) req) as [e|[r args]] eqn:Hmatch.
  - left. exists e. split; reflexivity.
  - right. pose proof Hmatch as Hfound.
    apply match_request_found in Hfound as (Hadapter & Hm & [H|H]).
    + destruct H as (-> & -> & Hpart & Hpath). left.
      split; [exact Hadapter|]. split; [intros E; rewrite E in Hpart; discriminate|].
      split; [exact Hpath|]. split; [exact Hm|].
      cbn [provide_automatic_options index_rule endpoint andb].
      destruct (bool_decide (method req = "OPTIONS")).
      * unfold make_response, make_default_options_response.
        now rewrite Hpart, allowed_methods_root.
      * rewrite view_functions_index. reflexivity.
    + destruct H as (-> & filename & -> & Hpart & Hpath). right.
      exists filename. split; [exact Hadapter|]. split; [exact Hpath|]. split; [exact Hm|].
      cbn [provide_automatic_options static_rule endpoint andb].
      destruct (bool_decide (method req = "OPTIONS")).
      * unfold make_response, make_default_options_response. rewrite Hpart.
        rewrite allowed_methods_static; [reflexivity|].
        unfold match_request in Hmatch. rewrite Hadapter in Hmatch.
        apply match_found in Hmatch as (_ & Hrule & _). now rewrite Hpart in Hrule.
      * rewrite view_functions_static. cbn [call].
        rewrite bool_decide_eq_true_2 by reflexivity.
        unfold send_static_file. cbv [mbind M_bind get_state].
        destruct (static_folder σ filename req); reflexivity.
Qed.

(** The answer depends on the application object through its rules and
    views, and on the state through the static folder. *)
Lemma wsgi_app_ext (a1 a2 : flask_app) (req : Request) (σ1 σ2 : State) :
  url_map a1 = url_map a2 →
  view_functions a1 = view_functions a2 →
  static_folder σ1 = static_folder σ2 →
  fst (wsgi_app call a1 req σ1) = fst (wsgi_app call a2 req σ2).
Proof.
  intros Hmap Hviews Hsf.
  unfold wsgi_app, full_dispatch_request, dispatch_request, match_request,
    make_default_options_response.
  cbv [mbind M_bind try_except]. rewrite Hmap, Hviews.
  destruct (match url_adapter req with inl e => _ | inr ws => _ end) as [e|[r args]];
    [reflexivity|].
  destruct (_ && _); [reflexivity|].
  destruct (view_functions a2 !! endpoint r) as [[]|]; [| |reflexivity].
  - destruct args; reflexivity.
  - destruct args as [|[k v] [|]]; try reflexivity.
    cbn [call]. case_bool_decide; [|reflexivity].
    unfold send_static_file. cbv [mbind M_bind get_state]. rewrite Hsf.
    destruct (static_folder σ2 v req); reflexivity.
Qed.





Lemma send_status (req : Request) (r : Response) :
  status_code (send req r) = status_code r.
Proof. unfold send. destruct (_ || _); reflexivity. Qed.

Lemma send_data (req : Request) (r : Response) :
  data (send req r) = data r ∨ data (send req r) = "".
Proof. unfold send. destruct (_ || _); auto. Qed.

Lemma send_head (req : Request) (r : Response) :
  method req = "HEAD" → data (send req r) = "".
Proof. intros H. unfold send. rewrite bool_decide_eq_true_2 by assumption. reflexivity. Qed.

Lemma get_body_not_text (e : HTTPException) : get_body e ≠ "5 + 3 = 8".
Proof. destruct e; discriminate. Qed.

Lemma code_not_200 (e : HTTPException) : code e ≠ 200.
Proof. destruct e; discriminate. Qed.

Lemma error_response_not_text (req : Request) (e : HTTPException) :
  data (send req (get_response e)) ≠ "5 + 3 = 8".
Proof.
  destruct (send_data req (get_response e)) as [-> | ->]; [|discriminate].
  apply get_body_not_text.
Qed.

Lemma allowed_iff (m : string) :
  m ∈ ({["GET"; "HEAD"; "OPTIONS"]} : gset string)
  ↔ m = "GET" ∨ m = "HEAD" ∨ m = "OPTIONS".
Proof. rewrite !elem_of_union, !elem_of_singleton. tauto. Qed.

(** ** The serving process *)



(** ** The claims *)




(** C2. Any two invocations of [index], in whatever states of the process
    they happen, return the same text, and an invocation hands the state
    back as it got it, so one made right after another sees what the first
    saw. *)
Theorem index_body_constant (σ1 σ2 : State) :
  fst (index σ1) = fst (index σ2)
  ∧ fst (index σ1) = inr "5 + 3 = 8"
  ∧ snd (index σ1) = σ1
  ∧ index (snd (index σ1)) = index σ1.
Proof. repeat split. Qed.





(** C5, as the program has it. [Flask(__name__)] registers the route
    [/static/<path:filename>] on its own. For a request whose path is not
    ["/"], the status is 200 only below ["/static/"], for an OPTIONS request
    or for a GET or HEAD that the static folder serves with that status;
    and the body is ["5 + 3 = 8"] only for a GET below ["/static/"] that the
    static folder serves a file of that content. *)
Theorem other_paths_not_served (name : string) (σ0 : State) (req : Request) :
  path req ≠ "/" →
  ∃ resp,
    fst (application req (snd (exec_module name σ0))) = Some resp
    ∧ (status_code resp = 200 →
       ∃ filename,
         path req = "/static/" +:+ filename
         ∧ (method req = "OPTIONS"
            ∨ ((method req = "GET" ∨ method req = "HEAD")
               ∧ ∃ r, static_folder σ0 filename req = Some r ∧ status_code r = 200)))
    ∧ (data resp = "5 + 3 = 8" →
       ∃ filename r,
         path req = "/static/" +:+ filename
         ∧ method req = "GET"
         ∧ static_folder σ0 filename req = Some r
         ∧ data r = "5 + 3 = 8").
Proof.
  intros Hroot. rewrite application_loaded. eexists. split; [reflexivity|].
  destruct (wsgi_app_cases name req (snd (exec_module name σ0)))
    as [(e & _ & ->) | [(_ & _ & Hp & _) | (filename & _ & Hp & Hm & ->)]].
  - rewrite send_status. split.
    + intros H. now destruct (code_not_200 e).
    + intros H. now destruct (error_response_not_text req e).
  - contradiction.
  - rewrite send_status, exec_module_static_folder. apply allowed_iff in Hm.
    case_bool_decide as Hopt.
    + split.
      * intros _. exists filename. auto.
      * intros H. destruct (send_data req (mkResponse 200 default_content_type
                               {["GET"; "HEAD"; "OPTIONS"]} "")) as [E|E];
          rewrite E in H; discriminate.
    + assert (method req = "GET" ∨ method req = "HEAD") as Hgh by tauto.
      destruct (static_folder σ0 filename req) as [r|] eqn:Hsf.
      * split.
        -- intros H. exists filename. split; [exact Hp|]. right. split; [exact Hgh|].
           exists r. auto.
        -- intros H. destruct (decide (method req = "HEAD")) as [Hhead|Hhead].
           ++ rewrite send_head in H by assumption. discriminate.
           ++ exists filename, r. split; [exact Hp|]. split; [tauto|]. split; [exact Hsf|].
              destruct (send_data req r) as [E|E]; rewrite E in H; [exact H|discriminate].
      * split.
        -- intros H. discriminate.
        -- intros H. now destruct (error_response_not_text req NotFound).
Qed.

Lemma other_paths_not_served_witness :
  ∃ resp,
    fst (application (mkRequest "GET" "/nonexistent" "" (inr false) [] "")
           (snd (exec_module "app" (mkState ∅ None (λ _ _, None) [] [])))) = Some resp
    ∧ (status_code resp = 200 →
       ∃ filename,
         path (mkRequest "GET" "/nonexistent" "" (inr false) [] "") = "/static/" +:+ filename
         ∧ (method (mkRequest "GET" "/nonexistent" "" (inr false) [] "") = "OPTIONS"
            ∨ ((method (mkRequest "GET" "/nonexistent" "" (inr false) [] "") = "GET"
                ∨ method (mkRequest "GET" "/nonexistent" "" (inr false) [] "") = "HEAD")
               ∧ ∃ r, (λ _ _, None) filename (mkRequest "GET" "/nonexistent" "" (inr false) [] "")
                      = Some r ∧ status_code r = 200)))
    ∧ (data resp = "5 + 3 = 8" →
       ∃ filename r,
         path (mkRequest "GET" "/nonexistent" "" (inr false) [] "") = "/static/" +:+ filename
         ∧ method (mkRequest "GET" "/nonexistent" "" (inr false) [] "") = "GET"
         ∧ (λ _ _, None) filename (mkRequest "GET" "/nonexistent" "" (inr false) [] "") = Some r
         ∧ data r = "5 + 3 = 8").
Proof.
  apply (other_paths_not_served "app" (mkState ∅ None (λ _ _, None) [] [])
           (mkRequest "GET" "/nonexistent" "" (inr false) [] "")).
  discriminate.
Defined.

(** C5 as it was stated does not hold: an OPTIONS request below
    ["/static/"] has a path other than ["/"] and is answered with status
    200 (and an empty body), by the automatic OPTIONS response of the static
    route. *)
Lemma static_options_answers_200 :
  path (mkRequest "OPTIONS" "/static/x" "" (inr false) [] "") ≠ "/"
  ∧ fst (application (mkRequest "OPTIONS" "/static/x" "" (inr false) [] "")
           (snd (exec_module "app" (mkState ∅ None (λ _ _, None) [] []))))
    = Some (mkResponse 200 default_content_type {["GET"; "HEAD"; "OPTIONS"]} "").
Proof. split; [discriminate|]. vm_compute. reflexivity. Qed.




(** C7. A call of [index] returns normally and leaves the whole state of
    the process (namespace, server, static folder) as it was; the same
    holds for a request that reaches it through the application. *)
Theorem index_no_side_effects :
  (∀ σ : State, index σ = (inr "5 + 3 = 8", σ))
  ∧ (∀ (name : string) (σ0 : State) (req : Request),
       snd (application req (snd (exec_module name σ0))) = snd (exec_module name σ0)).
Proof.
  split.
  - intros σ. reflexivity.
  - intros name σ0 req. apply application_state.
Qed.

(** C8. The literal that [index] returns is the text ["5 + 3 = "] followed
    by the decimal representation of 5 + 3, so [index] and the view that
    computes the sum agree on every state. *)
Theorem index_refines_computed_sum :
  "5 + 3 = 8" = "5 + 3 = " +:+ str_of_int (5 + 3)
  ∧ ∀ σ : State, index σ = index_computed σ.
Proof. split; [reflexivity|]. intros σ. reflexivity. Qed.



(** C10. Executed under any name other than ["__main__"], the module runs
    to its end without raising, leaves the server of the process and the
    static folder as they were, and only binds its namespace: the class,
    the application object with the static route of the constructor and the
    route ["/"] of [index], and the function. *)
Theorem import_starts_no_server (name : string) (σ0 : State) :
  name ≠ "__main__" →
  fst (exec_module name σ0) = inr ()
  ∧ server (snd (exec_module name σ0)) = server σ0
  ∧ static_folder (snd (exec_module name σ0)) = static_folder σ0
  ∧ globals (snd (exec_module name σ0)) =
      <["index" := VFunc fn_index]>
        (<["app" := VApp (mkFlask name [static_rule; index_rule]
                            (<["index" := fn_index]> {["static" := fn_send_static_file]}))]>
           (<["Flask" := VClass]> {["__name__" := VStr name]})).
Proof.
  intros Hname. rewrite module_body_import by assumption.
  repeat split; reflexivity.
Qed.

Lemma import_starts_no_server_witness :
  fst (exec_module "app" (mkState ∅ None (λ _ _, None) [] [])) = inr ()
  ∧ server (snd (exec_module "app" (mkState ∅ None (λ _ _, None) [] []))) = None
  ∧ static_folder (snd (exec_module "app" (mkState ∅ None (λ _ _, None) [] []))) = (λ _ _, None)
  ∧ globals (snd (exec_module "app" (mkState ∅ None (λ _ _, None) [] []))) =
      <["index" := VFunc fn_index]>
        (<["app" := VApp (mkFlask "app" [static_rule; index_rule]
                            (<["index" := fn_index]> {["static" := fn_send_static_file]}))]>
           (<["Flask" := VClass]> {["__name__" := VStr "app"]})).
Proof.
  apply (import_starts_no_server "app" (mkState ∅ None (λ _ _, None) [] [])).
  discriminate.
Defined.

(** ** Further properties of the application *)




(** X3. The text ["5 + 3 = 8"] leaves the application only as the answer to
    a GET request for ["/"], or as a file of the static folder: a response
    with that body belongs to a request that is a GET for ["/"] or has a
    path below ["/static/"]. *)
Theorem fixed_body_only_from_root_get (name : string) (σ0 : State)
    (req : Request) (resp : Response) :
  fst (application req (snd (exec_module name σ0))) = Some resp →
  data resp = "5 + 3 = 8" →
  (method req = "GET" ∧ path req = "/")
  ∨ ∃ filename, path req = "/static/" +:+ filename.
Proof.
  rewrite application_loaded. cbn [fst]. intros [= <-].
  destruct (wsgi_app_cases name req (snd (exec_module name σ0)))
    as [(e & _ & ->) | [(_ & _ & Hp & Hm & ->) | (filename & _ & Hp & _ & _)]].
  - intros H. now destruct (error_response_not_text req e).
  - apply allowed_iff in Hm. case_bool_decide as Hopt.
    + intros H. destruct (send_data req (mkResponse 200 default_content_type
                             {["GET"; "HEAD"; "OPTIONS"]} "")) as [E|E];
        rewrite E in H; discriminate.
    + destruct (decide (method req = "HEAD")) as [Hhead|Hhead].
      * rewrite send_head by assumption. discriminate.
      * intros _. left. split; [tauto|assumption].
  - intros _. right. now exists filename.
Qed.

Lemma fixed_body_only_from_root_get_witness :
  (method (mkRequest "GET" "/" "" (inr false) [] "") = "GET"
   ∧ path (mkRequest "GET" "/" "" (inr false) [] "") = "/")
  ∨ ∃ filename, path (mkRequest "GET" "/" "" (inr false) [] "") = "/static/" +:+ filename.
Proof.
  apply (fixed_body_only_from_root_get "app" (mkState ∅ None (λ _ _, None) [] [])
           (mkRequest "GET" "/" "" (inr false) [] "")
           (mkResponse 200 default_content_type ∅ "5 + 3 = 8")); reflexivity.
Defined.

(** X6. The development server of the main process and the WSGI callable
    of the imported module give the same answers: for processes with the
    same static folder, a request is answered alike by the process running
    the module as ["__main__"] and by the application of the module
    imported under any name. *)
Theorem server_and_import_agree (name : string) (σ1 σ2 : State) (req : Request) :
  static_folder σ1 = static_folder σ2 →
  fst (step call (Incoming req) (snd (exec_module "__main__" σ1)))
  = fst (application req (snd (exec_module name σ2))).
Proof.
  intros Hsf. rewrite application_loaded. cbn [fst].
  rewrite module_body_main. cbn [snd]. unfold step. cbn [server set_io set_server wsgi].
  destruct (wsgi_app call (app_object "__main__") req _) as [r σ'] eqn:E.
  cbn [fst]. f_equal. change r with (fst (r, σ')). rewrite <- E.
  apply wsgi_app_ext; [reflexivity..|].
  rewrite exec_module_static_folder. exact Hsf.
Qed.

Lemma server_and_import_agree_witness :
  fst (step call (Incoming (mkRequest "GET" "/" "" (inr false) [] ""))
         (snd (exec_module "__main__" (mkState ∅ None (λ _ _, None) [] []))))
  = fst (application (mkRequest "GET" "/" "" (inr false) [] "")
           (snd (exec_module "app" (mkState ∅ None (λ _ _, None) [] [])))).
Proof.
  apply (server_and_import_agree "app" (mkState ∅ None (λ _ _, None) [] [])
           (mkState ∅ None (λ _ _, None) [] []) (mkRequest "GET" "/" "" (inr false) [] "")).
  reflexivity.
Defined.

Lemma route_index (name : string) (σ : State) :
  route "/" fn_index (mkFlask name [static_rule] {["static" := fn_send_static_file]}) σ
  = (inr (fn_index, app_object name), σ).
Proof. vm_compute. reflexivity. Qed.

Lemma module_definitions_frame_aux (name : string) (σ : State) :
  globals σ !! "__name__" = Some (VStr name) →
  module_definitions σ =
    (inr (),
     set_globals
       (<["index" := VFunc fn_index]>
          (<["app" := VApp (app_object name)]>
             (<["Flask" := VClass]> (globals σ)))) σ).
Proof.
  intros Hname. unfold module_definitions, on_app.
  cbv [mbind M_bind store load modify_state]. cbn [globals set_globals].
  rewrite lookup_insert_eq. cbn [globals set_globals].
  rewrite lookup_insert_ne by done. rewrite Hname.
  rewrite Flask_init. cbn [globals set_globals].
  rewrite lookup_insert_eq. rewrite route_index.
  cbv [mret M_ret]. cbn [globals set_globals].
  rewrite insert_insert_eq. reflexivity.
Qed.

Lemma module_body_import_frame_aux (name : string) (σ : State) :
  name ≠ "__main__" →
  globals σ !! "__name__" = Some (VStr name) →
  module_body σ =
    (inr (),
     set_globals
       (<["index" := VFunc fn_index]>
          (<["app" := VApp (app_object name)]>
             (<["Flask" := VClass]> (globals σ)))) σ).
Proof.
  intros Hmain Hname. unfold module_body. cbv [mbind M_bind].
  rewrite (module_definitions_frame_aux name σ Hname).
  unfold module_main. cbv [mbind M_bind load]. cbn [globals set_globals].
  rewrite !lookup_insert_ne by done. rewrite Hname. cbn [eq_str].
  rewrite bool_decide_eq_false_2 by assumption. reflexivity.
Qed.

(** X10. Executing the statements of an imported module a second time, in
    the namespace the first execution left, changes nothing and raises
    nothing: each execution builds a new application object, so the route
    is never registered twice on one object. *)
Theorem reexecution_idempotent (name : string) (σ0 : State) :
  name ≠ "__main__" →
  module_body (snd (exec_module name σ0)) = (inr (), snd (exec_module name σ0)).
Proof.
  intros Hname. rewrite module_body_import by assumption. cbn [snd].
  rewrite (module_body_import_frame_aux name) by (assumption || reflexivity).
  cbn [globals set_globals]. f_equal.
Qed.

Lemma reexecution_idempotent_witness :
  module_body (snd (exec_module "app" (mkState ∅ None (λ _ _, None) [] [])))
  = (inr (), snd (exec_module "app" (mkState ∅ None (λ _ _, None) [] []))).
Proof.
  apply (reexecution_idempotent "app" (mkState ∅ None (λ _ _, None) [] [])).
  discriminate.
Defined.
